(** * monod: the webpack configuration module ([webpack.config.js])

    A shallow embedding of the module's top-level statements: the reads of
    [process.env], the [VERSION] function with its [try]/[catch] around
    [child_process.execSync], the write of [process.env.BABEL_ENV], the
    [common] object literal and the two guarded assignments of
    [module.exports]. *)

From Stdlib Require Import String Ascii List Bool Arith Lia.
From stdpp Require Import gmap strings.
Import ListNotations.
Local Open Scope string_scope.
Local Open Scope list_scope.

(** ** JavaScript values that occur in the configuration *)

Module Js.

#[local] Set Warnings "-register-all".

(** Object literals keep their keys in source order, so an object is an
    association list.  Plugin instances ([new F(args)]) and the results of
    calls into third-party packages ([autoprefixer(..)],
    [ExtractTextPlugin.extract(..)]) are kept symbolic: constructor or
    function name and the argument values. *)
Inductive JsValue : Type :=
| VBool (b : bool)
| VStr (s : string)
| VRegex (pattern : string)
| VArr (items : list JsValue)
| VObj (fields : list (string * JsValue))
| VNew (ctor : string) (args : list JsValue)
| VCall (fn : string) (args : list JsValue).

(** [o.k], [None] standing for [undefined]. *)
Fixpoint assoc (k : string) (fs : list (string * JsValue)) : option JsValue :=
  match fs with
  | [] => None
  | (k', v) :: r => if String.eqb k k' then Some v else assoc k r
  end.

Definition get (k : string) (v : JsValue) : option JsValue :=
  match v with
  | VObj fs => assoc k fs
  | _ => None
  end.

(** [o.k1.k2] *)
Definition get2 (k1 k2 : string) (v : JsValue) : option JsValue :=
  match get k1 v with
  | Some o => get k2 o
  | None => None
  end.

Definition keys (fs : list (string * JsValue)) : list string := map fst fs.

Definition has_key (k : string) (fs : list (string * JsValue)) : bool :=
  existsb (String.eqb k) (keys fs).

(** Number of elements of an array. *)
Definition arr_length (v : JsValue) : option nat :=
  match v with
  | VArr xs => Some (List.length xs)
  | _ => None
  end.

(** Webpack's reading of an [entry] value: a string is one entry point, an
    array lists the modules loaded for one bundle, an object has one entry
    point per key. *)
Definition entry_count (v : JsValue) : nat :=
  match v with
  | VStr _ => 1
  | VArr xs => List.length xs
  | VObj fs => List.length fs
  | _ => 0
  end.

Definition is_scalar (v : JsValue) : bool :=
  match v with
  | VBool _ | VStr _ | VRegex _ => true
  | _ => false
  end.

(** [String.prototype.substring(i, j)] for non-negative integer arguments:
    both indices are clamped to the length and swapped when [i > j].
    Strings here are sequences of one-byte characters; on the ASCII data
    of this module that coincides with JavaScript's UTF-16 code units. *)
Definition substring (s : string) (i j : nat) : string :=
  let len := String.length s in
  let a := Nat.min i len in
  let b := Nat.min j len in
  let from := Nat.min a b in
  let to := Nat.max a b in
  String.substring from (to - from) s.

(** [s.indexOf(needle) !== -1] *)
Fixpoint includes (needle s : string) : bool :=
  String.prefix needle s ||
  match s with
  | EmptyString => false
  | String _ r => includes needle r
  end.

Definition dquote : string := String "034"%char EmptyString.

(** [JSON.stringify] on the values this module passes to it: strings
    without characters that need escaping, booleans, arrays and objects
    of those.  A regular expression has no enumerable property and is
    rendered as an empty object; so are the symbolic values, which the
    module never passes to it. *)
Fixpoint JSON_stringify (v : JsValue) : string :=
  match v with
  | VBool true => "true"
  | VBool false => "false"
  | VStr s => dquote +:+ s +:+ dquote
  | VArr xs =>
      let fix items (l : list JsValue) : string :=
        match l with
        | [] => ""
        | [x] => JSON_stringify x
        | x :: r => JSON_stringify x +:+ "," +:+ items r
        end in
      "[" +:+ items xs +:+ "]"
  | VObj fs =>
      let fix members (l : list (string * JsValue)) : string :=
        match l with
        | [] => ""
        | [(k, x)] => dquote +:+ k +:+ dquote +:+ ":" +:+ JSON_stringify x
        | (k, x) :: r =>
            dquote +:+ k +:+ dquote +:+ ":" +:+ JSON_stringify x +:+ "," +:+ members r
        end in
      "{" +:+ members fs +:+ "}"
  | VRegex _ => "{}"
  | VNew _ _ => "{}"
  | VCall _ _ => "{}"
  end.

End Js.
Export Js.

(** ** The merge of [webpack-merge] *)

(** Modelled from the spec: [merge], which the module obtains by
    [require('webpack-merge')]; that package is a dependency and is not
    part of the sources.  The spec's merge semantics: overlay values are
    deep-merged onto the base, nested lists are concatenated rather than
    replaced, and a scalar field of the overlay takes precedence over the
    base.  Objects are merged key by key (base keys first, in order, then
    the keys only the overlay has); where base and overlay disagree in
    kind the overlay's value stands. *)
Fixpoint merge (base overlay : JsValue) {struct base} : JsValue :=
  match base, overlay with
  | VArr xs, VArr ys => VArr (xs ++ ys)
  | VObj fb, VObj fo =>
      let fix onto (l : list (string * JsValue)) : list (string * JsValue) :=
        match l with
        | [] => []
        | (k, v) :: r =>
            (k, match assoc k fo with
                | Some w => merge v w
                | None => v
                end) :: onto r
        end in
      VObj (onto fb ++ List.filter (fun kv => negb (has_key (fst kv) fb)) fo)
  | _, _ => overlay
  end.

(** The fields of [merge (VObj fb) (VObj fo)] that come from the base. *)
Fixpoint merge_onto (fo l : list (string * JsValue)) : list (string * JsValue) :=
  match l with
  | [] => []
  | (k, v) :: r =>
      (k, match assoc k fo with
          | Some w => merge v w
          | None => v
          end) :: merge_onto fo r
  end.

(** ** The process the module runs in *)

(** What the module reads but does not change: [__dirname], the [name]
    field of [package.json], and what a synchronous subprocess call does,
    [Some stdout] when it exits with status 0 and [None] when [execSync]
    throws (non-zero exit, missing tool). *)
Record Host : Type := {
  dirname : string;
  pkg_name : string;
  subprocess : string -> option string;
}.

(** What the module can change: [process.env], the subprocesses spawned
    so far (oldest first) and [module.exports]. *)
Record World : Type := {
  env : gmap string string;
  spawned : list string;
  exports : JsValue;
}.

Inductive JsError : Type :=
| ExecError (cmd : string).

Inductive Completion (A : Type) : Type :=
| Normal (a : A)
| Throw (e : JsError).
Arguments Normal {A} a.
Arguments Throw {A} e.

(** Statements and effectful expressions: state passing with abrupt
    completion. *)
Definition Eval (A : Type) : Type := World -> Completion A * World.

Definition ret {A} (a : A) : Eval A := fun w => (Normal a, w).

Definition bind {A B} (c : Eval A) (k : A -> Eval B) : Eval B :=
  fun w =>
    match c w with
    | (Normal a, w') => k a w'
    | (Throw e, w') => (Throw e, w')
    end.

Notation "'let!' x ':=' c 'in' k" := (bind c (fun x => k))
  (at level 10, x name, c at level 100, k at level 200).
Notation "c ';;' k" := (bind c (fun _ => k))
  (at level 100, k at level 200, right associativity).

(** [try { c } catch (e) { h e }] *)
Definition try_catch {A} (c : Eval A) (h : JsError -> Eval A) : Eval A :=
  fun w =>
    match c w with
    | (Normal a, w') => (Normal a, w')
    | (Throw e, w') => h e w'
    end.

(** [process.env[k]], [None] standing for [undefined]. *)
Definition getenv (k : string) : Eval (option string) :=
  fun w => (Normal (env w !! k), w).

(** [String(v)] for a value that is a string or [undefined]. *)
Definition to_String (v : option string) : string :=
  match v with
  | Some s => s
  | None => "undefined"
  end.

(** [process.env[k] = v]: Node stores [String(v)]. *)
Definition setenv (k : string) (v : option string) : Eval unit :=
  fun w =>
    (Normal tt,
     {| env := <[k := to_String v]> (env w);
        spawned := spawned w;
        exports := exports w |}).

(** [module.exports = v] *)
Definition set_exports (v : JsValue) : Eval unit :=
  fun w =>
    (Normal tt, {| env := env w; spawned := spawned w; exports := v |}).

(** Truthiness of a value that is a string or [undefined]: only
    [undefined] and the empty string are falsy. *)
Definition truthy (v : option string) : bool :=
  match v with
  | Some s => negb (String.eqb s "")
  | None => false
  end.

(** [v === s] for a string literal [s]. *)
Definition strict_eq (v : option string) (s : string) : bool :=
  match v with
  | Some t => String.eqb t s
  | None => false
  end.

(** What [VERSION] sees of an override variable: its value when truthy. *)
Definition seen (v : option string) : option string :=
  if truthy v then v else None.

(** ** The module *)

Section Module.

Variable host : Host.

(** [childProcess.execSync(cmd)]: the subprocess is spawned either way;
    the call returns its standard output or throws.  The [toString()] the
    module applies to the returned buffer is the identity on this
    representation. *)
Definition execSync (cmd : string) : Eval string :=
  fun w =>
    let w' := {| env := env w;
                 spawned := spawned w ++ [cmd];
                 exports := exports w |} in
    match subprocess host cmd with
    | Some out => (Normal out, w')
    | None => (Throw (ExecError cmd), w')
    end.

(** [a || b] where [a] is a string or [undefined]: [b] is evaluated only
    when [a] is falsy; a truthy [a] is a string, injected by [inj] into
    the type of the whole expression. *)
Definition js_or {B} (inj : string -> B)
    (a : Eval (option string)) (b : Eval B) : Eval B :=
  let! x := a in
  match x with
  | Some s => if truthy x then ret (inj s) else b
  | None => b
  end.

(** [path.join(a, b)] for an absolute, normalized [a] other than the root
    and a relative [b] without [.] or [..] segments, which is how the
    module calls it. *)
Definition path_join (a b : string) : string := a +:+ "/" +:+ b.

(** Line 18: [const TARGET = process.env.npm_lifecycle_event] *)
Definition TARGET : Eval (option string) := getenv "npm_lifecycle_event".

(** Lines 19-22 *)
Definition PATHS_app : string := path_join (dirname host) "app".
Definition PATHS_build : string := path_join (dirname host) "build".

(** Line 28, the body of the [try] block: the value assigned to [v]. *)
Definition VERSION_try : Eval string :=
  js_or id
    (js_or Some (getenv "SOURCE_VERSION") (getenv "SHA"))
    (execSync "git rev-parse HEAD").

(** Lines 24-35 *)
Definition VERSION : Eval string :=
  try_catch VERSION_try (fun _ => ret "unknown").

(** Lines 130-139 and 140-151: the two plugins of the base configuration,
    each given [VERSION.substring(0, 7)]. *)
Definition html_plugin (version : string) : JsValue :=
  VNew "HtmlWebpackPlugin"
    [VObj [("template", VStr "index.ejs");
           ("title", VStr (pkg_name host));
           ("favicon", VStr "app/favicon.ico");
           ("version", VStr (substring version 0 7));
           ("appMountId", VStr "app")]].

Definition offline_plugin (version : string) : JsValue :=
  VNew "OfflinePlugin"
    [VObj [("caches", VStr "all");
           ("scope", VStr "/");
           ("version", VStr (substring version 0 7));
           ("ServiceWorker", VObj [("cache_name", VStr "monod")]);
           ("AppCache",
            VObj [("FALLBACK", VObj [("/", VStr "/")]);
                  ("NETWORK", VArr [VStr "/documents"; VStr "*"])])]].

(** Lines 41-153 *)
Definition common (version : string) : JsValue :=
  VObj
    [("entry", VObj [("app", VStr PATHS_app)]);
     ("resolve", VObj [("extensions", VArr [VStr ""; VStr ".js"; VStr ".jsx"])]);
     ("output", VObj [("path", VStr PATHS_build); ("filename", VStr "[name].js")]);
     ("module",
      VObj
        [("noParse", VArr [VRegex "autoit\.js$"]);
         ("preLoaders",
          VArr [VObj [("test", VRegex "\.jsx?$");
                      ("loaders", VArr [VStr "eslint"]);
                      ("include", VStr PATHS_app)]]);
         ("loaders",
          VArr
            [VObj [("test", VRegex "\.jsx?$");
                   ("loaders", VArr [VStr "babel?cacheDirectory"; VStr "unlazy"]);
                   ("include", VStr PATHS_app)];
             VObj [("test", VRegex "\.(ttf|eot|svg|woff(2)?)(\?v=.+)?$");
                   ("loaders", VArr [VStr "file?name=fonts/[name].[ext]"]);
                   ("include",
                    VArr [VStr (path_join (dirname host) "node_modules/font-awesome/fonts/");
                          VStr (path_join (dirname host) "node_modules/katex/dist/fonts/")])];
             VObj [("test", VRegex "\.(ttf|eot|svg|woff(2)?)(\?[a-z0-9]+)?$");
                   ("loaders", VArr [VStr "file?name=[path][name].[ext]&context=./app"]);
                   ("include", VStr PATHS_app)];
             VObj [("test", VRegex "\.json$");
                   ("loaders",
                    VArr [VStr "file?name=[path][name].[ext]&context=./node_modules"])];
             VObj [("test", VRegex "\.png$");
                   ("loaders",
                    VArr [VStr "file?name=[path][name].[ext]&context=./node_modules"]);
                   ("include",
                    VStr (path_join (dirname host) "node_modules/emojione/"))]])]);
     ("postcss",
      VArr [VCall "autoprefixer"
              [VObj [("browsers", VArr [VStr "last 2 versions"])]]]);
     ("node", VObj [("fs", VStr "empty")]);
     ("plugins", VArr [html_plugin version; offline_plugin version])].

(** Lines 157-178: the object merged onto [common] for development. *)
Definition dev_overlay : JsValue :=
  VObj
    [("devtool", VStr "eval-source-map");
     ("entry",
      VArr [VStr "react-hot-loader/patch";
            VStr "webpack-dev-server/client?http://localhost:4000";
            VStr "webpack/hot/only-dev-server";
            VStr PATHS_app]);
     ("module",
      VObj
        [("loaders",
          VArr [VObj [("test", VRegex "\.s?css$");
                      ("loaders",
                       VArr [VStr "style"; VStr "css"; VStr "postcss"; VStr "sass"])]])]);
     ("plugins", VArr [VNew "webpack.HotModuleReplacementPlugin" []])].

(** Lines 183-235: the object merged onto [common] for production. *)
Definition build_overlay : JsValue :=
  VObj
    [("debug", VBool false);
     ("devtool", VStr "source-map");
     ("output",
      VObj [("path", VStr PATHS_build);
            ("filename", VStr "[name].[chunkhash].js");
            ("chunkFilename", VStr "[chunkhash].js")]);
     ("module",
      VObj
        [("loaders",
          VArr
            [VObj
               [("test", VRegex "\.(css|scss)$");
                ("loader",
                 VCall "ExtractTextPlugin.extract"
                   [VStr "style";
                    VStr ("css?" +:+
                          JSON_stringify
                            (VObj [("discardComments",
                                    VObj [("removeAll", VBool true)])]) +:+
                          "!postcss!sass")])]])]);
     ("plugins",
      VArr
        [VNew "CleanPlugin" [VArr [VStr PATHS_build]];
         VNew "webpack.DefinePlugin"
           [VObj [("process.env",
                   VObj [("NODE_ENV", VStr (JSON_stringify (VStr "production")))])]];
         VNew "webpack.optimize.DedupePlugin" [];
         VNew "webpack.optimize.OccurrenceOrderPlugin" [];
         VNew "webpack.optimize.UglifyJsPlugin"
           [VObj [("output", VObj [("comments", VBool false)]);
                  ("compress", VObj [("warnings", VBool false)])]];
         VNew "ExtractTextPlugin"
           [VStr "[name].[chunkhash].css"; VObj [("allChunks", VBool true)]];
         VNew "WebpackRobots" []])].

(** Line 156: [TARGET === 'dev' || !TARGET] *)
Definition dev_guard (target : option string) : bool :=
  strict_eq target "dev" || negb (truthy target).

(** Line 182: [TARGET === 'build'] *)
Definition build_guard (target : option string) : bool :=
  strict_eq target "build".

(** Lines 18-35: the constants [TARGET] and [VERSION]. *)
Definition prelude : Eval (option string * string) :=
  let! target := TARGET in
  let! version := VERSION in
  ret (target, version).

(** Lines 37-153: the base configuration is built.  Line 38 assigns
    [process.env.BABEL_ENV = TARGET], then the object literal [common] is
    evaluated. *)
Definition base_stage (target : option string) (version : string) : Eval JsValue :=
  setenv "BABEL_ENV" target ;;
  ret (common version).

(** Lines 155-236: the two guarded assignments of [module.exports]. *)
Definition overlay_stage (target : option string) (base : JsValue) : Eval unit :=
  (if dev_guard target
   then set_exports (merge base dev_overlay)
   else ret tt) ;;
  (if build_guard target
   then set_exports (merge base build_overlay)
   else ret tt).

(** The whole module, top to bottom. *)
Definition module_body : Eval unit :=
  let! tv := prelude in
  let! base := base_stage (fst tv) (snd tv) in
  overlay_stage (fst tv) base.

(** The world at the moment Node starts to evaluate the module:
    [module.exports] is a fresh empty object. *)
Definition start (e : gmap string string) : World :=
  {| env := e; spawned := []; exports := VObj [] |}.

(** The configuration the bundler receives from environment [e]. *)
Definition exported (e : gmap string string) : JsValue :=
  exports (snd (module_body (start e))).

(** The version string from environment [e]. *)
Definition version_of (e : gmap string string) : Completion string :=
  fst (VERSION (start e)).

End Module.

(** The [version] option a plugin instance was constructed with. *)
Definition plugin_version (p : JsValue) : option JsValue :=
  match p with
  | VNew _ (VObj opts :: _) => assoc "version" opts
  | _ => None
  end.

(** The [version] options of the plugins of a configuration, in order;
    plugins constructed without one are skipped. *)
Definition plugin_versions (cfg : JsValue) : list JsValue :=
  match get "plugins" cfg with
  | Some (VArr ps) => omap plugin_version ps
  | _ => []
  end.

(** The elements of an array-valued field, [[]] when there is none. *)
Definition arr_items (o : option JsValue) : list JsValue :=
  match o with
  | Some (VArr xs) => xs
  | _ => []
  end.

(** [s.length] of a string value. *)
Definition str_length (v : JsValue) : option nat :=
  match v with
  | VStr s => Some (String.length s)
  | _ => None
  end.

(** [w] with the variable [k] removed from [process.env]. *)
Definition unset (k : string) (w : World) : World :=
  {| env := delete k (env w); spawned := spawned w; exports := exports w |}.

(** The directories handed to [CleanPlugin] instances ([new
    CleanPlugin([dir, ..])]) among the plugins of a configuration: what a
    build removes before it writes. *)
Definition clean_targets (cfg : JsValue) : list JsValue :=
  flat_map
    (fun p => match p with
              | VNew "CleanPlugin" (VArr dirs :: _) => dirs
              | _ => []
              end)
    (arr_items (get "plugins" cfg)).

(** ** Sample hosts and environments *)

Definition git_cmd : string := "git rev-parse HEAD".

(** A checkout where [git rev-parse HEAD] prints a revision. *)
Definition host_git : Host :=
  {| dirname := "/srv/monod";
     pkg_name := "monod";
     subprocess := fun cmd =>
       if String.eqb cmd git_cmd then Some "abcdef1234567890" else None |}.

(** A deployment without a repository: every subprocess call throws. *)
Definition host_nogit : Host :=
  {| dirname := "/srv/monod";
     pkg_name := "monod";
     subprocess := fun _ => None |}.

Definition env_of (l : list (string * string)) : gmap string string :=
  list_to_map l.

(** * Properties *)

(** ** The version string *)

Section Version.

Variable host : Host.

Ltac unfold_eval :=
  cbv [VERSION VERSION_try try_catch js_or bind ret getenv execSync prelude TARGET
       base_stage overlay_stage module_body setenv set_exports id].

Lemma truthy_Some (s : string) : truthy (Some s) = true <-> s <> "".
Proof.
  simpl. rewrite negb_true_iff. split.
  - intros H E. apply String.eqb_neq in H. auto.
  - intros H. now apply String.eqb_neq.
Qed.

Lemma truthy_false (v : option string) :
  truthy v = false <-> v = None \/ v = Some "".
Proof.
  destruct v as [s|]; simpl.
  - rewrite negb_false_iff, String.eqb_eq. split.
    + intros ->. now right.
    + intros [H|H]; congruence.
  - split; auto.
Qed.

(** A truthy [SOURCE_VERSION] is the result; nothing else is consulted. *)
Lemma VERSION_first (w : World) (a : string) :
  env w !! "SOURCE_VERSION" = Some a -> a <> "" ->
  VERSION host w = (Normal a, w).
Proof.
  intros Ha Hne. apply truthy_Some in Hne.
  unfold_eval. rewrite Ha, !Hne. reflexivity.
Qed.

(** With a falsy [SOURCE_VERSION], a truthy [SHA] is the result. *)
Lemma VERSION_second (w : World) (b : string) :
  truthy (env w !! "SOURCE_VERSION") = false ->
  env w !! "SHA" = Some b -> b <> "" ->
  VERSION host w = (Normal b, w).
Proof.
  intros Ha Hb Hne. apply truthy_Some in Hne.
  unfold_eval.
  destruct (env w !! "SOURCE_VERSION") as [a|]; rewrite ?Ha, ?Hb, !Hne; reflexivity.
Qed.

(** With both falsy the subprocess is spawned, once, and its failure is
    replaced by ["unknown"]. *)
Lemma VERSION_third (w : World) :
  truthy (env w !! "SOURCE_VERSION") = false ->
  truthy (env w !! "SHA") = false ->
  VERSION host w =
    (Normal (default "unknown" (subprocess host git_cmd)),
     {| env := env w; spawned := spawned w ++ [git_cmd]; exports := exports w |}).
Proof.
  intros Ha Hb. unfold_eval. fold git_cmd.
  destruct (env w !! "SOURCE_VERSION") as [a|]; rewrite ?Ha;
    destruct (env w !! "SHA") as [b|]; rewrite ?Hb;
    destruct (subprocess host git_cmd); reflexivity.
Qed.

(** [VERSION] completes normally in every world, leaves [process.env] and
    [module.exports] alone and spawns at most the one subprocess. *)
Lemma VERSION_total (w : World) :
  exists v w',
    VERSION host w = (Normal v, w') /\
    env w' = env w /\ exports w' = exports w /\
    (spawned w' = spawned w \/ spawned w' = spawned w ++ [git_cmd]).
Proof.
  destruct (truthy (env w !! "SOURCE_VERSION")) eqn:Ha.
  - destruct (env w !! "SOURCE_VERSION") as [a|] eqn:Ea; [|discriminate].
    apply truthy_Some in Ha. exists a, w.
    rewrite (VERSION_first w a Ea Ha). auto.
  - destruct (truthy (env w !! "SHA")) eqn:Hb.
    + destruct (env w !! "SHA") as [b|] eqn:Eb; [|discriminate].
      apply truthy_Some in Hb. exists b, w.
      rewrite (VERSION_second w b Ha Eb Hb). auto.
    + eexists _, _. rewrite (VERSION_third w Ha Hb). simpl. auto.
Qed.

Lemma seen_Some (v : option string) (s : string) :
  seen v = Some s -> v = Some s /\ s <> "".
Proof.
  unfold seen. destruct (truthy v) eqn:T; [|discriminate].
  intros ->. split; [reflexivity|]. now apply truthy_Some.
Qed.

Lemma seen_None (v : option string) : seen v = None -> truthy v = false.
Proof.
  unfold seen. destruct (truthy v) eqn:T; [|reflexivity].
  intros ->. discriminate.
Qed.

(** Two worlds whose override variables look alike to [VERSION] and that
    have spawned the same subprocesses get the same version and spawn the
    same subprocesses. *)
Lemma VERSION_congr (w1 w2 : World) :
  seen (env w1 !! "SOURCE_VERSION") = seen (env w2 !! "SOURCE_VERSION") ->
  seen (env w1 !! "SHA") = seen (env w2 !! "SHA") ->
  spawned w1 = spawned w2 ->
  fst (VERSION host w1) = fst (VERSION host w2) /\
  spawned (snd (VERSION host w1)) = spawned (snd (VERSION host w2)).
Proof.
  intros HA HB HS.
  destruct (seen (env w2 !! "SOURCE_VERSION")) as [a|] eqn:E2.
  - apply seen_Some in HA, E2. destruct HA as [A1 N1], E2 as [A2 _].
    rewrite (VERSION_first w1 a A1 N1), (VERSION_first w2 a A2 N1). auto.
  - apply seen_None in HA, E2.
    destruct (seen (env w2 !! "SHA")) as [b|] eqn:F2.
    + apply seen_Some in HB, F2. destruct HB as [B1 N1], F2 as [B2 _].
      rewrite (VERSION_second w1 b HA B1 N1), (VERSION_second w2 b E2 B2 N1). auto.
    + apply seen_None in HB, F2.
      rewrite (VERSION_third w1 HA HB), (VERSION_third w2 E2 F2). simpl.
      now rewrite HS.
Qed.

End Version.

(** C2, as stated, fails: with [SOURCE_VERSION] set to the empty string
    and [SHA] set to ["abc"], the version is ["abc"] and not the value of
    [SOURCE_VERSION]. *)
Lemma VERSION_set_but_empty_override :
  let e := env_of [("SOURCE_VERSION", ""); ("SHA", "abc")] in
  e !! "SOURCE_VERSION" = Some "" /\
  version_of host_git e = Normal "abc" /\
  version_of host_git e <> Normal "".
Proof. vm_compute. repeat split; discriminate. Qed.

(** C2, amended: in every state where [SOURCE_VERSION] is set to a
    non-empty string, [VERSION] is exactly that string, whatever [SHA] and
    the subprocess are, and no subprocess is spawned; where
    [SOURCE_VERSION] is unset or empty and [SHA] is set to a non-empty
    string, [VERSION] is exactly the value of [SHA], again without a
    subprocess; and only when both are unset or empty is the subprocess
    consulted. *)
Theorem VERSION_priority (host : Host) (w : World) :
  (forall a, env w !! "SOURCE_VERSION" = Some a -> a <> "" ->
     VERSION host w = (Normal a, w)) /\
  (forall b, (env w !! "SOURCE_VERSION" = None \/ env w !! "SOURCE_VERSION" = Some "") ->
     env w !! "SHA" = Some b -> b <> "" ->
     VERSION host w = (Normal b, w)) /\
  ((env w !! "SOURCE_VERSION" = None \/ env w !! "SOURCE_VERSION" = Some "") ->
   (env w !! "SHA" = None \/ env w !! "SHA" = Some "") ->
   fst (VERSION host w) = Normal (default "unknown" (subprocess host git_cmd)) /\
   spawned (snd (VERSION host w)) = spawned w ++ [git_cmd]).
Proof.
  split; [|split].
  - intros a Ha Hne. now apply VERSION_first.
  - intros b Ha Hb Hne. apply VERSION_second; auto. now apply truthy_false.
  - intros Ha Hb. apply truthy_false in Ha, Hb.
    rewrite (VERSION_third host w Ha Hb). split; reflexivity.
Qed.

Lemma VERSION_priority_witness :
  VERSION host_nogit (start (env_of [("SOURCE_VERSION", "v1.2.3"); ("SHA", "abc")]))
    = (Normal "v1.2.3", start (env_of [("SOURCE_VERSION", "v1.2.3"); ("SHA", "abc")])) /\
  VERSION host_nogit (start (env_of [("SHA", "abc")]))
    = (Normal "abc", start (env_of [("SHA", "abc")])) /\
  fst (VERSION host_git (start (env_of [("SOURCE_VERSION", "")]))) = Normal "abcdef1234567890".
Proof.
  split; [|split].
  - apply (proj1 (VERSION_priority host_nogit _)); [reflexivity | discriminate].
  - apply (proj1 (proj2 (VERSION_priority host_nogit _)));
      [left; reflexivity | reflexivity | discriminate].
  - apply (proj2 (proj2 (VERSION_priority host_git
             (start (env_of [("SOURCE_VERSION", "")])))));
      [right; reflexivity | left; reflexivity].
Defined.

(** C9: an override variable set to the empty string is treated exactly
    as an unset one.  For [SOURCE_VERSION] and for [SHA] alike, [VERSION]
    gives the same result and spawns the same subprocesses as in the
    world where the variable is removed, so resolution falls through to
    the next source and the empty string is never the result of an
    override. *)
Theorem VERSION_empty_override_as_unset (host : Host) (w : World) (k : string) :
  k = "SOURCE_VERSION" \/ k = "SHA" ->
  env w !! k = Some "" ->
  fst (VERSION host w) = fst (VERSION host (unset k w)) /\
  spawned (snd (VERSION host w)) = spawned (snd (VERSION host (unset k w))) /\
  (k = "SOURCE_VERSION" ->
     forall b, env w !! "SHA" = Some b -> b <> "" -> fst (VERSION host w) = Normal b) /\
  (truthy (env w !! "SOURCE_VERSION") = false -> truthy (env w !! "SHA") = false ->
     fst (VERSION host w) = Normal (default "unknown" (subprocess host git_cmd))).
Proof.
  intros Hk He.
  assert (Hother : forall k', k' <> k -> env (unset k w) !! k' = env w !! k').
  { intros k' Hne. unfold unset; simpl. now apply lookup_delete_ne. }
  assert (Hself : env (unset k w) !! k = None).
  { unfold unset; simpl. apply lookup_delete_eq. }
  assert (Hcongr : fst (VERSION host w) = fst (VERSION host (unset k w)) /\
                   spawned (snd (VERSION host w))
                   = spawned (snd (VERSION host (unset k w)))).
  { apply VERSION_congr; [| |reflexivity].
    - destruct Hk as [-> | ->].
      + now rewrite Hself, He.
      + now rewrite Hother.
    - destruct Hk as [-> | ->].
      + now rewrite Hother.
      + now rewrite Hself, He. }
  destruct Hcongr as [H1 H2].
  split; [exact H1|split; [exact H2|split]].
  - intros -> b Hb Hne. rewrite (VERSION_second host w b); auto. now rewrite He.
  - intros Ha Hb. now rewrite (VERSION_third host w Ha Hb).
Qed.

Lemma VERSION_empty_override_as_unset_witness :
  let w := start (env_of [("SOURCE_VERSION", ""); ("SHA", "abc")]) in
  fst (VERSION host_git w) = fst (VERSION host_git (unset "SOURCE_VERSION" w)) /\
  fst (VERSION host_git w) = Normal "abc".
Proof.
  intros w.
  destruct (VERSION_empty_override_as_unset host_git w "SOURCE_VERSION")
    as (H1 & _ & H3 & _); [left; reflexivity | reflexivity |].
  split; [exact H1 | apply H3; [reflexivity | reflexivity | discriminate]].
Defined.

(** ** The module as a whole *)

Section Run.

Variable host : Host.

(** The module always completes normally.  Its final world: [BABEL_ENV]
    holds [String(TARGET)], the subprocesses are those [VERSION] spawned,
    and [module.exports] is decided by the two guards, the second
    assignment overriding the first. *)
Lemma module_body_run (w : World) :
  let t := env w !! "npm_lifecycle_event" in
  exists v w1,
    VERSION host w = (Normal v, w1) /\
    module_body host w =
      (Normal tt,
       {| env := <["BABEL_ENV" := to_String t]> (env w);
          spawned := spawned w1;
          exports :=
            if build_guard t then merge (common host v) (build_overlay host)
            else if dev_guard t then merge (common host v) (dev_overlay host)
            else exports w |}).
Proof.
  intros t.
  destruct (VERSION_total host w) as (v & w1 & HV & He & Hx & _).
  exists v, w1. split; [exact HV|].
  unfold module_body, prelude, bind, TARGET, getenv. rewrite HV.
  cbv [fst snd base_stage overlay_stage bind setenv set_exports ret].
  fold t. rewrite He, Hx.
  destruct (build_guard t), (dev_guard t); reflexivity.
Qed.

(** The guards of the two assignments never hold together. *)
Lemma guards_exclusive (t : option string) :
  dev_guard t && build_guard t = false.
Proof.
  unfold dev_guard, build_guard.
  destruct t as [s|]; simpl; [|reflexivity].
  destruct (String.eqb s "build") eqn:E; [|apply andb_false_r].
  apply String.eqb_eq in E. subst s. reflexivity.
Qed.

Lemma dev_guard_true (t : option string) :
  dev_guard t = true <-> t = Some "dev" \/ t = None \/ t = Some "".
Proof.
  unfold dev_guard. rewrite orb_true_iff, negb_true_iff, truthy_false.
  destruct t as [s|]; simpl; rewrite ?String.eqb_eq.
  - split.
    + intros [-> | [H|H]]; auto.
    + intros [H | [H|H]]; [left; congruence | discriminate | right; now right].
  - split; auto.
Qed.

Lemma build_guard_true (t : option string) :
  build_guard t = true <-> t = Some "build".
Proof.
  unfold build_guard. destruct t as [s|]; simpl.
  - rewrite String.eqb_eq. split; congruence.
  - split; discriminate.
Qed.

(** The configuration exported from environment [e], by cases on the
    target. *)
Lemma exported_cases (e : gmap string string) :
  let t := e !! "npm_lifecycle_event" in
  exists v,
    version_of host e = Normal v /\
    exported host e =
      if build_guard t then merge (common host v) (build_overlay host)
      else if dev_guard t then merge (common host v) (dev_overlay host)
      else VObj [].
Proof.
  intros t. unfold exported, version_of.
  destruct (module_body_run (start e)) as (v & w1 & HV & HM).
  exists v. rewrite HV, HM. split; reflexivity.
Qed.

End Run.

(** The [try] block throws only when both override variables are falsy
    and the subprocess call fails. *)
Lemma VERSION_try_throws (host : Host) (w : World) (err : JsError) :
  fst (VERSION_try host w) = Throw err <->
  truthy (env w !! "SOURCE_VERSION") = false /\
  truthy (env w !! "SHA") = false /\
  subprocess host git_cmd = None /\
  err = ExecError git_cmd.
Proof.
  cbv [VERSION_try js_or bind ret getenv execSync id]. fold git_cmd.
  destruct (env w !! "SOURCE_VERSION") as [a|] eqn:Ea.
  - destruct (truthy (Some a)) eqn:Ta; rewrite ?Ta; simpl.
    + split; [discriminate | intros (H & _); discriminate].
    + destruct (env w !! "SHA") as [b|] eqn:Eb.
      * destruct (truthy (Some b)) eqn:Tb; rewrite ?Tb; simpl.
        -- split; [discriminate | intros (_ & H & _); discriminate].
        -- destruct (subprocess host git_cmd); simpl.
           ++ split; [discriminate | intros (_ & _ & H & _); discriminate].
           ++ split; [intros [= <-]; auto | intros (_ & _ & _ & ->); reflexivity].
      * destruct (subprocess host git_cmd); simpl.
        -- split; [discriminate | intros (_ & _ & H & _); discriminate].
        -- split; [intros [= <-]; auto | intros (_ & _ & _ & ->); reflexivity].
  - destruct (env w !! "SHA") as [b|] eqn:Eb.
    + destruct (truthy (Some b)) eqn:Tb; rewrite ?Tb; simpl.
      * split; [discriminate | intros (_ & H & _); discriminate].
      * destruct (subprocess host git_cmd); simpl.
        -- split; [discriminate | intros (_ & _ & H & _); discriminate].
        -- split; [intros [= <-]; auto | intros (_ & _ & _ & ->); reflexivity].
    + destruct (subprocess host git_cmd); simpl.
      * split; [discriminate | intros (_ & _ & H & _); discriminate].
      * split; [intros [= <-]; auto | intros (_ & _ & _ & ->); reflexivity].
Qed.

(** C4: when neither override variable is set and the subprocess call
    fails, [VERSION] is the literal ["unknown"].  The failure is caught:
    [VERSION] completes normally in every world, and so does the whole
    module.  It is the only failure there is: the [try] block throws only
    in that situation (both overrides falsy, subprocess failing), and the
    error it throws is the one of the subprocess call. *)
Theorem VERSION_unknown_on_failure (host : Host) (w : World) :
  env w !! "SOURCE_VERSION" = None ->
  env w !! "SHA" = None ->
  subprocess host git_cmd = None ->
  fst (VERSION_try host w) = Throw (ExecError git_cmd) /\
  fst (VERSION host w) = Normal "unknown" /\
  fst (module_body host w) = Normal tt /\
  (forall w', exists v, fst (VERSION host w') = Normal v) /\
  (forall w', fst (module_body host w') = Normal tt) /\
  (forall w' err, fst (VERSION_try host w') = Throw err ->
     truthy (env w' !! "SOURCE_VERSION") = false /\
     truthy (env w' !! "SHA") = false /\
     subprocess host git_cmd = None /\ err = ExecError git_cmd).
Proof.
  intros Ha Hb Hg.
  assert (Hmod : forall w', fst (module_body host w') = Normal tt).
  { intros w'. destruct (module_body_run host w') as (v & w1 & _ & HM).
    now rewrite HM. }
  split; [|split; [|split; [|split; [|split]]]].
  - apply VERSION_try_throws. rewrite Ha, Hb. auto.
  - rewrite (VERSION_third host w); [|now rewrite Ha|now rewrite Hb].
    now rewrite Hg.
  - apply Hmod.
  - intros w'. destruct (VERSION_total host w') as (v & w1 & HV & _).
    exists v. now rewrite HV.
  - exact Hmod.
  - intros w' err H. now apply VERSION_try_throws.
Qed.

Lemma VERSION_unknown_on_failure_witness :
  fst (VERSION host_nogit (start ∅)) = Normal "unknown" /\
  fst (module_body host_nogit (start ∅)) = Normal tt.
Proof.
  destruct (VERSION_unknown_on_failure host_nogit (start ∅))
    as (_ & H1 & H2 & _); [reflexivity | reflexivity | reflexivity |].
  split; [exact H1 | exact H2].
Defined.

(** ** Merging *)

Section Merge.

Lemma merge_obj (fb fo : list (string * JsValue)) :
  merge (VObj fb) (VObj fo) =
  VObj (merge_onto fo fb ++ List.filter (fun kv => negb (has_key (fst kv) fb)) fo).
Proof.
  simpl. f_equal. f_equal.
  induction fb as [|[k v] r IH]; simpl; [reflexivity|].
  now rewrite IH.
Qed.

Lemma merge_arr (xs ys : list JsValue) :
  merge (VArr xs) (VArr ys) = VArr (xs ++ ys).
Proof. reflexivity. Qed.

Lemma merge_scalar (b o : JsValue) : is_scalar o = true -> merge b o = o.
Proof. destruct b, o; simpl; intros H; try discriminate; reflexivity. Qed.

Lemma assoc_app (k : string) (l1 l2 : list (string * JsValue)) :
  assoc k (l1 ++ l2) =
  match assoc k l1 with
  | Some v => Some v
  | None => assoc k l2
  end.
Proof.
  induction l1 as [|[k' v] r IH]; simpl; [reflexivity|].
  destruct (String.eqb k k'); [reflexivity | exact IH].
Qed.

Lemma assoc_merge_onto (k : string) (fo fb : list (string * JsValue)) :
  assoc k (merge_onto fo fb) =
  match assoc k fb with
  | Some v => Some (match assoc k fo with
                    | Some w => merge v w
                    | None => v
                    end)
  | None => None
  end.
Proof.
  induction fb as [|[k' v] r IH]; simpl; [reflexivity|].
  destruct (String.eqb k k') eqn:E; [|exact IH].
  apply String.eqb_eq in E. now subst k'.
Qed.

Lemma assoc_None_has_key (k : string) (fs : list (string * JsValue)) :
  assoc k fs = None -> has_key k fs = false.
Proof.
  unfold has_key, keys.
  induction fs as [|[k' v] r IH]; simpl; [reflexivity|].
  destruct (String.eqb k k'); [discriminate | exact IH].
Qed.

Lemma assoc_filter_fresh (k : string) (fb fo : list (string * JsValue)) :
  has_key k fb = false ->
  assoc k (List.filter (fun kv => negb (has_key (fst kv) fb)) fo) = assoc k fo.
Proof.
  intros Hk.
  induction fo as [|[k' v] r IH]; [reflexivity|].
  cbn [List.filter fst assoc].
  destruct (String.eqb k k') eqn:E.
  - apply String.eqb_eq in E. subst k'.
    rewrite Hk. cbn [negb assoc]. now rewrite String.eqb_refl.
  - destruct (negb (has_key k' fb)); cbn [assoc]; rewrite ?E; exact IH.
Qed.

(** Field [k] of a merge of two objects. *)
Lemma get_merge (k : string) (fb fo : list (string * JsValue)) :
  get k (merge (VObj fb) (VObj fo)) =
  match assoc k fb, assoc k fo with
  | Some v, Some w => Some (merge v w)
  | Some v, None => Some v
  | None, o => o
  end.
Proof.
  rewrite merge_obj. unfold get.
  rewrite assoc_app, assoc_merge_onto.
  destruct (assoc k fb) as [v|] eqn:Eb.
  - destruct (assoc k fo); reflexivity.
  - apply assoc_filter_fresh. now apply assoc_None_has_key.
Qed.

End Merge.

(** C3: merging an overlay onto a base is a deep merge.  A field that is
    a list on both sides becomes the base's elements followed by the
    overlay's, nothing dropped and nothing added; a scalar field of the
    overlay is the merged value whatever the base holds; a field that is
    an object on both sides is merged in turn; a field only the base has
    is kept.  In particular, for the module's two overlays the merged
    module rules and plugins are those of [common] followed by those of
    the overlay, and [devtool] is the overlay's. *)
Theorem merge_overlay_onto_base
    (fb fo : list (string * JsValue)) (k : string) (host : Host) (version : string) :
  (forall xs ys, assoc k fb = Some (VArr xs) -> assoc k fo = Some (VArr ys) ->
     get k (merge (VObj fb) (VObj fo)) = Some (VArr (xs ++ ys)) /\
     List.length (xs ++ ys) = List.length xs + List.length ys) /\
  (forall v, assoc k fo = Some v -> is_scalar v = true ->
     get k (merge (VObj fb) (VObj fo)) = Some v) /\
  (forall b o, assoc k fb = Some (VObj b) -> assoc k fo = Some (VObj o) ->
     get k (merge (VObj fb) (VObj fo)) = Some (merge (VObj b) (VObj o))) /\
  (forall v, assoc k fb = Some v -> assoc k fo = None ->
     get k (merge (VObj fb) (VObj fo)) = Some v) /\
  (forall ov, ov = dev_overlay host \/ ov = build_overlay host ->
     let base := common host version in
     get2 "module" "loaders" (merge base ov)
       = Some (VArr (arr_items (get2 "module" "loaders" base) ++
                     arr_items (get2 "module" "loaders" ov))) /\
     get "plugins" (merge base ov)
       = Some (VArr (arr_items (get "plugins" base) ++
                     arr_items (get "plugins" ov))) /\
     get "devtool" (merge base ov) = get "devtool" ov /\
     is_Some (get "devtool" ov)).
Proof.
  split; [|split; [|split; [|split]]].
  - intros xs ys Hb Ho. rewrite get_merge, Hb, Ho. split.
    + now rewrite merge_arr.
    + apply length_app.
  - intros v Ho Hs. rewrite get_merge, Ho.
    destruct (assoc k fb); [|reflexivity]. now rewrite merge_scalar.
  - intros b o Hb Ho. now rewrite get_merge, Hb, Ho.
  - intros v Hb Ho. now rewrite get_merge, Hb, Ho.
  - intros ov [-> | ->]; repeat split; try reflexivity; eexists; reflexivity.
Qed.

Lemma merge_overlay_onto_base_witness :
  get "plugins" (merge (common host_git "abcdef1") (dev_overlay host_git))
  = Some (VArr [html_plugin host_git "abcdef1";
                offline_plugin "abcdef1";
                VNew "webpack.HotModuleReplacementPlugin" []]) /\
  get "devtool" (merge (common host_git "abcdef1") (dev_overlay host_git))
  = Some (VStr "eval-source-map").
Proof.
  split.
  - apply (proj1 (merge_overlay_onto_base _ _ "plugins" host_git "abcdef1")
             [html_plugin host_git "abcdef1"; offline_plugin "abcdef1"]
             [VNew "webpack.HotModuleReplacementPlugin" []]);
      reflexivity.
  - apply (proj1 (proj2 (merge_overlay_onto_base _ _ "devtool" host_git "abcdef1")));
      reflexivity.
Defined.

(** ** The version seen by the plugins *)

Lemma length_substring_0 (n : nat) (s : string) :
  String.length (String.substring 0 n s) = Nat.min n (String.length s).
Proof.
  revert s. induction n as [|n IH]; intros [|c s]; simpl; try reflexivity.
  now rewrite IH.
Qed.

(** [s.substring(0, n)] has the first [n] characters, or all of [s]. *)
Lemma length_substring_prefix (s : string) (n : nat) :
  String.length (substring s 0 n) = Nat.min n (String.length s).
Proof.
  unfold substring.
  rewrite Nat.min_0_l, Nat.min_0_l, Nat.max_0_l, Nat.sub_0_r.
  rewrite length_substring_0. lia.
Qed.

(** Both plugins of [common] hold [VERSION.substring(0, 7)]. *)
Lemma plugin_versions_common (host : Host) (v : string) :
  plugin_versions (common host v) = [VStr (substring v 0 7); VStr (substring v 0 7)].
Proof. reflexivity. Qed.

(** Neither overlay adds a plugin that is given a version. *)
Lemma plugin_versions_merged (host : Host) (v : string) :
  plugin_versions (merge (common host v) (dev_overlay host))
    = plugin_versions (common host v) /\
  plugin_versions (merge (common host v) (build_overlay host))
    = plugin_versions (common host v).
Proof. split; reflexivity. Qed.

Lemma plugin_versions_exported (host : Host) (e : gmap string string) :
  let t := e !! "npm_lifecycle_event" in
  exists v,
    version_of host e = Normal v /\
    plugin_versions (exported host e) =
      if build_guard t || dev_guard t
      then [VStr (substring v 0 7); VStr (substring v 0 7)]
      else [].
Proof.
  intros t. destruct (exported_cases host e) as (v & HV & HE). fold t in HE.
  exists v. split; [exact HV|]. rewrite HE.
  destruct (plugin_versions_merged host v) as [Hd Hb].
  destruct (build_guard t), (dev_guard t); simpl orb; cbv iota;
    rewrite ?Hd, ?Hb; reflexivity.
Qed.

(** The module spawns at most the one subprocess. *)
Lemma module_spawns_at_most_once (host : Host) (w : World) :
  spawned (snd (module_body host w)) = spawned w \/
  spawned (snd (module_body host w)) = spawned w ++ [git_cmd].
Proof.
  destruct (module_body_run host w) as (v & w1 & HV & HM).
  destruct (VERSION_total host w) as (v' & w1' & HV' & _ & _ & HS).
  rewrite HV in HV'. injection HV' as _ <-.
  rewrite HM. exact HS.
Qed.

(** C5: when neither override variable is set and the subprocess prints
    ["abcdef1234567890"], [VERSION] is that full string, its truncation
    [substring(0, 7)] is ["abcdef1"], and that is the version both
    plugins of the base configuration and of the exported configuration
    are given. *)
Theorem VERSION_from_git (host : Host) (e : gmap string string) :
  e !! "SOURCE_VERSION" = None ->
  e !! "SHA" = None ->
  subprocess host git_cmd = Some "abcdef1234567890" ->
  version_of host e = Normal "abcdef1234567890" /\
  substring "abcdef1234567890" 0 7 = "abcdef1" /\
  plugin_versions (common host "abcdef1234567890") = [VStr "abcdef1"; VStr "abcdef1"] /\
  plugin_versions (exported host e) =
    (if build_guard (e !! "npm_lifecycle_event") || dev_guard (e !! "npm_lifecycle_event")
     then [VStr "abcdef1"; VStr "abcdef1"]
     else []).
Proof.
  intros Ha Hb Hg.
  assert (HV : version_of host e = Normal "abcdef1234567890").
  { unfold version_of. rewrite (VERSION_third host (start e)).
    - now rewrite Hg.
    - simpl. now rewrite Ha.
    - simpl. now rewrite Hb. }
  split; [exact HV|]. split; [reflexivity|]. split; [reflexivity|].
  destruct (plugin_versions_exported host e) as (v & HV' & HP).
  rewrite HV in HV'. injection HV' as <-. exact HP.
Qed.

Lemma VERSION_from_git_witness :
  version_of host_git (env_of [("npm_lifecycle_event", "build")])
    = Normal "abcdef1234567890" /\
  plugin_versions (exported host_git (env_of [("npm_lifecycle_event", "build")]))
    = [VStr "abcdef1"; VStr "abcdef1"].
Proof.
  destruct (VERSION_from_git host_git (env_of [("npm_lifecycle_event", "build")]))
    as (H1 & _ & _ & H4); [reflexivity | reflexivity | reflexivity |].
  split; [exact H1 | exact H4].
Defined.

(** C10, as stated, fails on the length: with [SOURCE_VERSION] set to
    ["v1"] both plugins are given ["v1"], two characters and not seven. *)
Lemma short_version_given_to_plugins :
  let e := env_of [("SOURCE_VERSION", "v1"); ("npm_lifecycle_event", "dev")] in
  plugin_versions (exported host_git e) = [VStr "v1"; VStr "v1"] /\
  map str_length (plugin_versions (exported host_git e)) = [Some 2; Some 2] /\
  map str_length (plugin_versions (exported host_git e)) <> [Some 7; Some 7].
Proof. vm_compute. repeat split; discriminate. Qed.

(** C10, amended: the version is computed once per evaluation of the
    module, so the subprocess is spawned at most once; the HTML plugin and
    the offline-cache plugin are given the identical value
    [VERSION.substring(0, 7)], in [common] and in the exported
    configuration alike.  That value has at most 7 characters: exactly 7
    when [VERSION] has at least 7, all of [VERSION] otherwise. *)
Theorem version_shared_by_plugins (host : Host) (e : gmap string string) :
  exists v,
    version_of host e = Normal v /\
    (spawned (snd (module_body host (start e))) = [] \/
     spawned (snd (module_body host (start e))) = [git_cmd]) /\
    plugin_version (html_plugin host v) = Some (VStr (substring v 0 7)) /\
    plugin_version (offline_plugin v) = Some (VStr (substring v 0 7)) /\
    plugin_versions (common host v) = [VStr (substring v 0 7); VStr (substring v 0 7)] /\
    plugin_versions (exported host e) =
      (if build_guard (e !! "npm_lifecycle_event") || dev_guard (e !! "npm_lifecycle_event")
       then [VStr (substring v 0 7); VStr (substring v 0 7)]
       else []) /\
    String.length (substring v 0 7) = Nat.min 7 (String.length v) /\
    String.length (substring v 0 7) <= 7.
Proof.
  destruct (plugin_versions_exported host e) as (v & HV & HP).
  exists v. split; [exact HV|]. split.
  { exact (module_spawns_at_most_once host (start e)). }
  split; [reflexivity|]. split; [reflexivity|]. split; [reflexivity|].
  split; [exact HP|].
  rewrite length_substring_prefix. split; [reflexivity | lia].
Qed.

(** ** Which overlay is merged *)

Lemma merged_configurations_differ (host : Host) (v : string) :
  merge (common host v) (dev_overlay host)
    <> merge (common host v) (build_overlay host) /\
  merge (common host v) (dev_overlay host) <> VObj [] /\
  merge (common host v) (build_overlay host) <> VObj [].
Proof.
  repeat split; intros H; apply (f_equal (get "devtool")) in H;
    vm_compute in H; discriminate.
Qed.

(** C1, as stated, fails: for the unrecognized target ["test"] neither
    guard holds, no overlay is merged and [module.exports] stays the
    empty object. *)
Lemma unrecognized_target_merges_nothing :
  let e := env_of [("npm_lifecycle_event", "test")] in
  dev_guard (e !! "npm_lifecycle_event") = false /\
  build_guard (e !! "npm_lifecycle_event") = false /\
  exported host_git e = VObj [] /\
  exported host_git e
    <> merge (common host_git "abcdef1234567890") (dev_overlay host_git).
Proof.
  vm_compute. repeat split. discriminate.
Qed.

(** C1, amended: the two overlays are mutually exclusive but not
    exhaustive.  Target ['build'] merges the production overlay; target
    ['dev'], an unset target and an empty target merge the development
    overlay; for every other value no overlay is merged and the module
    exports the empty object.  The three outcomes are distinct
    configurations, and the two guards never hold together. *)
Theorem overlay_selection (host : Host) (e : gmap string string) :
  let t := e !! "npm_lifecycle_event" in
  exists v,
    version_of host e = Normal v /\
    dev_guard t && build_guard t = false /\
    (t = Some "build" ->
       exported host e = merge (common host v) (build_overlay host)) /\
    (t = Some "dev" \/ t = None \/ t = Some "" ->
       exported host e = merge (common host v) (dev_overlay host)) /\
    (t <> Some "build" -> t <> Some "dev" -> t <> None -> t <> Some "" ->
       exported host e = VObj []) /\
    merge (common host v) (dev_overlay host)
      <> merge (common host v) (build_overlay host) /\
    merge (common host v) (dev_overlay host) <> VObj [] /\
    merge (common host v) (build_overlay host) <> VObj [].
Proof.
  intros t. destruct (exported_cases host e) as (v & HV & HE). fold t in HE.
  exists v. split; [exact HV|]. split; [apply guards_exclusive|].
  split; [|split; [|split]].
  - intros Ht. apply build_guard_true in Ht. now rewrite Ht in HE.
  - intros Ht. apply dev_guard_true in Ht.
    pose proof (guards_exclusive t) as Hx. rewrite Ht in Hx. simpl in Hx.
    now rewrite Hx, Ht in HE.
  - intros Hb Hd Hn He.
    destruct (build_guard t) eqn:Gb.
    { apply build_guard_true in Gb. contradiction. }
    destruct (dev_guard t) eqn:Gd; [|exact HE].
    apply dev_guard_true in Gd. destruct Gd as [G | [G | G]]; contradiction.
  - apply merged_configurations_differ.
Qed.

Lemma overlay_selection_witness :
  exported host_git (env_of [("npm_lifecycle_event", "build")])
    = merge (common host_git "abcdef1234567890") (build_overlay host_git) /\
  exported host_git (env_of [("SHA", "0123456789")])
    = merge (common host_git "0123456789") (dev_overlay host_git) /\
  exported host_git (env_of [("npm_lifecycle_event", "start")]) = VObj [].
Proof.
  split; [|split].
  - destruct (overlay_selection host_git (env_of [("npm_lifecycle_event", "build")]))
      as (v & HV & _ & H & _).
    injection HV as <-. apply H. reflexivity.
  - destruct (overlay_selection host_git (env_of [("SHA", "0123456789")]))
      as (v & HV & _ & _ & H & _).
    injection HV as <-. apply H. right. left. reflexivity.
  - destruct (overlay_selection host_git (env_of [("npm_lifecycle_event", "start")]))
      as (v & _ & _ & _ & _ & H & _).
    apply H; discriminate.
Defined.

(** ** Effects of building the base configuration *)

(** C8, as stated, fails: line 38 assigns [process.env.BABEL_ENV] on the
    way to the base configuration, so the process environment changes. *)
Lemma base_stage_changes_env :
  let w := start (env_of [("npm_lifecycle_event", "build")]) in
  let w' := snd (base_stage host_git (Some "build") "abcdef1234567890" w) in
  env w !! "BABEL_ENV" = None /\
  env w' !! "BABEL_ENV" = Some "build" /\
  env w' <> env w.
Proof.
  vm_compute. repeat split. discriminate.
Qed.

(** C8, amended: building the base configuration returns [common] and
    has exactly one effect, the assignment of line 38:
    [process.env.BABEL_ENV] becomes [String(TARGET)] (the text
    ["undefined"] for an unset target).  Every other environment variable
    is unchanged, no subprocess is spawned and [module.exports] is
    untouched. *)
Theorem base_stage_frame
    (host : Host) (target : option string) (version : string) (w : World) :
  let r := base_stage host target version w in
  fst r = Normal (common host version) /\
  env (snd r) = <["BABEL_ENV" := to_String target]> (env w) /\
  env (snd r) !! "BABEL_ENV" = Some (to_String target) /\
  (forall k, k <> "BABEL_ENV" -> env (snd r) !! k = env w !! k) /\
  spawned (snd r) = spawned w /\
  exports (snd r) = exports w.
Proof.
  cbv [base_stage bind setenv ret fst snd env spawned exports].
  split; [reflexivity|]. split; [reflexivity|].
  split; [apply lookup_insert_eq|].
  split; [|split; reflexivity].
  intros k Hk. now apply lookup_insert_ne.
Qed.

Lemma base_stage_frame_witness :
  let w := start (env_of [("npm_lifecycle_event", "build"); ("SHA", "abc")]) in
  env (snd (base_stage host_git (Some "build") "abc" w)) !! "SHA" = env w !! "SHA".
Proof.
  intros w.
  destruct (base_stage_frame host_git (Some "build") "abc" w) as (_ & _ & _ & H & _).
  apply H. discriminate.
Defined.

(** ** The two exported configurations *)

(** The version does not depend on the target variable. *)
Lemma version_of_target_irrelevant (host : Host) (e1 e2 : gmap string string) :
  e1 !! "SOURCE_VERSION" = e2 !! "SOURCE_VERSION" ->
  e1 !! "SHA" = e2 !! "SHA" ->
  version_of host e1 = version_of host e2.
Proof.
  intros Ha Hb. unfold version_of.
  apply VERSION_congr; simpl; [now rewrite Ha | now rewrite Hb | reflexivity].
Qed.

(** C6: with target ['dev'], and equally with the target unset, the
    exported configuration has as [entry] the three hot-reload bootstrap
    entries followed by the application entry of the base, three more
    than the base's entries, and its [devtool] is ['eval-source-map'].
    The configuration exported with the target unset is identical to the
    one exported with target ['dev']. *)
Theorem dev_configuration (host : Host) (e : gmap string string) :
  e !! "npm_lifecycle_event" = Some "dev" \/ e !! "npm_lifecycle_event" = None ->
  exists v base_entry merged_entry,
    version_of host e = Normal v /\
    get "entry" (common host v) = Some base_entry /\
    base_entry = VObj [("app", VStr (PATHS_app host))] /\
    get "entry" (exported host e) = Some merged_entry /\
    merged_entry =
      VArr ([VStr "react-hot-loader/patch";
             VStr "webpack-dev-server/client?http://localhost:4000";
             VStr "webpack/hot/only-dev-server"] ++ [VStr (PATHS_app host)]) /\
    entry_count merged_entry = entry_count base_entry + 3 /\
    arr_length merged_entry = Some (entry_count base_entry + 3) /\
    get "devtool" (exported host e) = Some (VStr "eval-source-map") /\
    exported host (delete "npm_lifecycle_event" e) = exported host e /\
    exported host (<["npm_lifecycle_event" := "dev"]> e) = exported host e.
Proof.
  intros Ht.
  assert (Hdev : forall e', e' !! "npm_lifecycle_event" = Some "dev" \/
                            e' !! "npm_lifecycle_event" = None ->
            exists v, version_of host e' = Normal v /\
                      exported host e' = merge (common host v) (dev_overlay host)).
  { intros e' Ht'.
    destruct (exported_cases host e') as (v & HV & HE).
    exists v. split; [exact HV|].
    destruct Ht' as [Ht' | Ht']; rewrite Ht' in HE; exact HE. }
  destruct (Hdev e Ht) as (v & HV & HE).
  exists v, (VObj [("app", VStr (PATHS_app host))]).
  eexists. split; [exact HV|]. split; [reflexivity|]. split; [reflexivity|].
  rewrite HE. split; [reflexivity|]. split; [reflexivity|].
  split; [reflexivity|]. split; [reflexivity|]. split; [reflexivity|].
  split.
  - destruct (Hdev (delete "npm_lifecycle_event" e)) as (v' & HV' & HE').
    { right. apply lookup_delete_eq. }
    rewrite HE'. f_equal. f_equal.
    assert (Normal v' = Normal v) as [= ->]; [|reflexivity].
    rewrite <- HV, <- HV'.
    apply version_of_target_irrelevant; now rewrite lookup_delete_ne.
  - destruct (Hdev (<["npm_lifecycle_event" := "dev"]> e)) as (v' & HV' & HE').
    { left. apply lookup_insert_eq. }
    rewrite HE'. f_equal. f_equal.
    assert (Normal v' = Normal v) as [= ->]; [|reflexivity].
    rewrite <- HV, <- HV'.
    apply version_of_target_irrelevant; now rewrite lookup_insert_ne.
Qed.

Lemma dev_configuration_witness :
  get "devtool" (exported host_git (env_of [("npm_lifecycle_event", "dev")]))
    = Some (VStr "eval-source-map") /\
  get "devtool" (exported host_nogit ∅) = Some (VStr "eval-source-map") /\
  exported host_nogit (<["npm_lifecycle_event" := "dev"]> ∅) = exported host_nogit ∅.
Proof.
  destruct (dev_configuration host_git (env_of [("npm_lifecycle_event", "dev")]))
    as (v1 & b1 & m1 & _ & _ & _ & _ & _ & _ & _ & H1 & _); [left; reflexivity|].
  destruct (dev_configuration host_nogit ∅)
    as (v2 & b2 & m2 & _ & _ & _ & _ & _ & _ & _ & H2 & _ & H3); [right; reflexivity|].
  split; [exact H1 | split; [exact H2 | exact H3]].
Defined.

(** C7: with target ['build'] the exported configuration has an output
    filename template that contains the chunk-hash placeholder, for the
    entry chunk ([filename]) and for the non-entry chunks
    ([chunkFilename]), and its plugin list, the base's two plugins
    followed by the seven of the overlay, is strictly longer than the
    base's. *)
Theorem build_configuration (host : Host) (e : gmap string string) :
  e !! "npm_lifecycle_event" = Some "build" ->
  exists v base_plugins plugins,
    version_of host e = Normal v /\
    get2 "output" "filename" (exported host e) = Some (VStr "[name].[chunkhash].js") /\
    includes "[chunkhash]" "[name].[chunkhash].js" = true /\
    get2 "output" "chunkFilename" (exported host e) = Some (VStr "[chunkhash].js") /\
    includes "[chunkhash]" "[chunkhash].js" = true /\
    get "plugins" (common host v) = Some (VArr base_plugins) /\
    get "plugins" (exported host e) = Some (VArr plugins) /\
    plugins = base_plugins ++ arr_items (get "plugins" (build_overlay host)) /\
    List.length base_plugins = 2 /\
    List.length plugins = 9 /\
    List.length base_plugins < List.length plugins.
Proof.
  intros Ht.
  destruct (exported_cases host e) as (v & HV & HE).
  rewrite Ht in HE. change (build_guard (Some "build")) with true in HE.
  cbv iota in HE.
  exists v. eexists. eexists.
  split; [exact HV|]. rewrite HE.
  split; [reflexivity|]. split; [reflexivity|]. split; [reflexivity|].
  split; [reflexivity|]. split; [reflexivity|]. split; [reflexivity|].
  split; [reflexivity|]. split; [reflexivity|]. split; [reflexivity|].
  simpl. lia.
Qed.

Lemma build_configuration_witness :
  get2 "output" "filename"
    (exported host_git (env_of [("npm_lifecycle_event", "build")]))
    = Some (VStr "[name].[chunkhash].js").
Proof.
  destruct (build_configuration host_git (env_of [("npm_lifecycle_event", "build")]))
    as (v & bp & ps & _ & H & _); [reflexivity | exact H].
Defined.

(** * Further properties of the module *)

(** ** What evaluation does to the process *)

Lemma snoc_neq {A} (l : list A) (x : A) : l <> l ++ [x].
Proof.
  intros H. apply (f_equal (@List.length A)) in H.
  rewrite length_app in H. simpl in H. lia.
Qed.

(** X1: evaluating the module completes normally in every world and
    writes one environment variable only: [BABEL_ENV] ends up set, to the
    target when there is one and to the text ["undefined"] otherwise.
    Every other variable, the three the module reads included, is left as
    it was, and with a target that satisfies neither guard
    [module.exports] is not assigned at all. *)
Theorem module_body_frame (host : Host) (w : World) :
  let t := env w !! "npm_lifecycle_event" in
  let w' := snd (module_body host w) in
  fst (module_body host w) = Normal tt /\
  env w' = <["BABEL_ENV" := to_String t]> (env w) /\
  (forall k, k <> "BABEL_ENV" -> env w' !! k = env w !! k) /\
  (forall s, t = Some s -> env w' !! "BABEL_ENV" = Some s) /\
  (t = None -> env w' !! "BABEL_ENV" = Some "undefined") /\
  (dev_guard t = false -> build_guard t = false -> exports w' = exports w).
Proof.
  intros t w'. subst w'.
  destruct (module_body_run host w) as (v & w1 & _ & HM). fold t in HM.
  rewrite HM. cbn [fst snd env exports].
  split; [reflexivity|]. split; [reflexivity|].
  split; [intros k Hk; now apply lookup_insert_ne|].
  split; [intros s ->; apply lookup_insert_eq|].
  split; [intros ->; apply lookup_insert_eq|].
  intros -> ->. reflexivity.
Qed.

Lemma module_body_frame_witness :
  let w := start (env_of [("npm_lifecycle_event", "test"); ("SHA", "abc")]) in
  env (snd (module_body host_git w)) !! "SHA" = Some "abc" /\
  env (snd (module_body host_git w)) !! "BABEL_ENV" = Some "test" /\
  env (snd (module_body host_git (start ∅))) !! "BABEL_ENV" = Some "undefined" /\
  exports (snd (module_body host_git w)) = VObj [].
Proof.
  intros w.
  destruct (module_body_frame host_git w) as (_ & _ & H1 & H2 & _ & H3).
  destruct (module_body_frame host_git (start ∅)) as (_ & _ & _ & _ & H4 & _).
  split; [|split; [|split]].
  - rewrite H1; [reflexivity | discriminate].
  - apply H2. reflexivity.
  - apply H4. reflexivity.
  - apply H3; reflexivity.
Defined.

(** X2: the module runs [git rev-parse HEAD] exactly when both override
    variables are unset or empty, and then once; with a non-empty
    [SOURCE_VERSION] or [SHA] it spawns nothing, whatever the target. *)
Theorem module_spawns_git_iff (host : Host) (w : World) :
  let w' := snd (module_body host w) in
  (spawned w' = spawned w ++ [git_cmd] <->
     truthy (env w !! "SOURCE_VERSION") = false /\ truthy (env w !! "SHA") = false) /\
  (spawned w' = spawned w <->
     truthy (env w !! "SOURCE_VERSION") = true \/ truthy (env w !! "SHA") = true).
Proof.
  intros w'. subst w'.
  destruct (module_body_run host w) as (v & w1 & HV & HM).
  rewrite HM. cbn [snd spawned].
  destruct (truthy (env w !! "SOURCE_VERSION")) eqn:Ha.
  - destruct (env w !! "SOURCE_VERSION") as [a|] eqn:Ea; [|discriminate].
    apply truthy_Some in Ha.
    rewrite (VERSION_first host w a Ea Ha) in HV. injection HV as _ <-.
    split; split; auto.
    + intros H. exfalso. eapply snoc_neq. first [exact H | symmetry; exact H].
    + intros [H _]. discriminate.
  - destruct (truthy (env w !! "SHA")) eqn:Hb.
    + destruct (env w !! "SHA") as [b|] eqn:Eb; [|discriminate].
      apply truthy_Some in Hb.
      rewrite (VERSION_second host w b Ha Eb Hb) in HV. injection HV as _ <-.
      split; split; auto.
      * intros H. exfalso. eapply snoc_neq. first [exact H | symmetry; exact H].
      * intros [_ H]. discriminate.
    + rewrite (VERSION_third host w Ha Hb) in HV. injection HV as _ <-.
      cbn [spawned]. split; split; auto.
      * intros H. exfalso. eapply snoc_neq. first [exact H | symmetry; exact H].
      * intros [H | H]; discriminate.
Qed.

Lemma module_spawns_git_iff_witness :
  spawned (snd (module_body host_git (start ∅))) = [git_cmd] /\
  spawned (snd (module_body host_git (start (env_of [("SHA", "abc")])))) = [].
Proof.
  split.
  - apply (proj1 (module_spawns_git_iff host_git (start ∅))).
    split; reflexivity.
  - apply (proj2 (module_spawns_git_iff host_git (start (env_of [("SHA", "abc")])))).
    right. reflexivity.
Defined.

(** X3: the version is always one of four things: the value of
    [SOURCE_VERSION], the value of [SHA], the output of the subprocess, or
    ["unknown"].  It is the empty string in one situation only: both
    overrides unset or empty and a subprocess that succeeds printing
    nothing. *)
Theorem VERSION_value (host : Host) (w : World) :
  exists v,
    fst (VERSION host w) = Normal v /\
    (env w !! "SOURCE_VERSION" = Some v \/ env w !! "SHA" = Some v \/
     subprocess host git_cmd = Some v \/ v = "unknown") /\
    (v = "" <->
       truthy (env w !! "SOURCE_VERSION") = false /\
       truthy (env w !! "SHA") = false /\
       subprocess host git_cmd = Some "").
Proof.
  destruct (truthy (env w !! "SOURCE_VERSION")) eqn:Ha.
  - destruct (env w !! "SOURCE_VERSION") as [a|] eqn:Ea; [|discriminate].
    apply truthy_Some in Ha. exists a.
    rewrite (VERSION_first host w a Ea Ha).
    split; [reflexivity|]. split; [now left|].
    split; [intros ->; contradiction | intros (H & _); discriminate].
  - destruct (truthy (env w !! "SHA")) eqn:Hb.
    + destruct (env w !! "SHA") as [b|] eqn:Eb; [|discriminate].
      apply truthy_Some in Hb. exists b.
      rewrite (VERSION_second host w b Ha Eb Hb).
      split; [reflexivity|]. split; [right; now left|].
      split; [intros ->; contradiction | intros (_ & H & _); discriminate].
    + rewrite (VERSION_third host w Ha Hb).
      destruct (subprocess host git_cmd) as [out|]; cbn [default fst].
      * exists out. split; [reflexivity|]. split; [right; right; now left|].
        split; [intros ->; auto | intros (_ & _ & [= ->]); reflexivity].
      * exists "unknown". split; [reflexivity|]. split; [now repeat right|].
        split; [discriminate | intros (_ & _ & H); discriminate].
Qed.

(** ** What the exported configuration depends on *)

(** Environments that look alike to the two guards and to [VERSION] give
    the same version and the same exported configuration. *)
Lemma exported_congr (host : Host) (e1 e2 : gmap string string) :
  dev_guard (e1 !! "npm_lifecycle_event") = dev_guard (e2 !! "npm_lifecycle_event") ->
  build_guard (e1 !! "npm_lifecycle_event") = build_guard (e2 !! "npm_lifecycle_event") ->
  seen (e1 !! "SOURCE_VERSION") = seen (e2 !! "SOURCE_VERSION") ->
  seen (e1 !! "SHA") = seen (e2 !! "SHA") ->
  version_of host e1 = version_of host e2 /\
  exported host e1 = exported host e2.
Proof.
  intros Hd Hb HA HB.
  assert (HV : version_of host e1 = version_of host e2).
  { unfold version_of. now apply VERSION_congr. }
  split; [exact HV|].
  destruct (exported_cases host e1) as (v1 & HV1 & HE1).
  destruct (exported_cases host e2) as (v2 & HV2 & HE2).
  rewrite HV1, HV2 in HV. injection HV as ->.
  rewrite HE1, HE2, Hd, Hb. reflexivity.
Qed.



(** X5: the module's own write to [process.env] does not feed back.
    Evaluated again in the environment it left behind, the module exports
    the same configuration from the same version and leaves that
    environment as it is. *)
Theorem reevaluation_stable (host : Host) (e : gmap string string) :
  let e' := env (snd (module_body host (start e))) in
  version_of host e' = version_of host e /\
  exported host e' = exported host e /\
  env (snd (module_body host (start e'))) = e'.
Proof.
  intros e'.
  destruct (module_body_run host (start e)) as (v & w1 & _ & HM).
  assert (He' : e' = <["BABEL_ENV" := to_String (e !! "npm_lifecycle_event")]> e).
  { subst e'. now rewrite HM. }
  assert (HT : e' !! "npm_lifecycle_event" = e !! "npm_lifecycle_event").
  { rewrite He'. now apply lookup_insert_ne. }
  assert (HA : e' !! "SOURCE_VERSION" = e !! "SOURCE_VERSION").
  { rewrite He'. now apply lookup_insert_ne. }
  assert (HB : e' !! "SHA" = e !! "SHA").
  { rewrite He'. now apply lookup_insert_ne. }
  destruct (exported_congr host e' e) as [HV HE]; rewrite ?HT, ?HA, ?HB; auto.
  split; [exact HV|]. split; [exact HE|].
  destruct (module_body_run host (start e')) as (v' & w1' & _ & HM').
  rewrite HM'. cbn [snd env start]. rewrite HT.
  rewrite He'. apply insert_insert_eq.
Qed.

(** ** Truncation of the version *)

Lemma substring_from_0 (s : string) (n : nat) :
  substring s 0 n = String.substring 0 (Nat.min n (String.length s)) s.
Proof.
  unfold substring.
  now rewrite Nat.min_0_l, Nat.min_0_l, Nat.max_0_l, Nat.sub_0_r.
Qed.

Lemma substring_0_app (n : nat) (s t : string) :
  n <= String.length s ->
  String.substring 0 n (s +:+ t) = String.substring 0 n s.
Proof.
  revert s. induction n as [|n IH]; intros [|c s] H; simpl in *;
    try reflexivity; try lia.
  - now destruct t.
  - f_equal. apply IH. lia.
Qed.

Lemma length_append (s t : string) :
  String.length (s +:+ t) = String.length s + String.length t.
Proof. induction s as [|c s IH]; simpl; [reflexivity | now rewrite IH]. Qed.

Lemma prefix_substring_0 (n : nat) (s : string) :
  String.prefix (String.substring 0 n s) s = true.
Proof.
  revert s. induction n as [|n IH]; intros [|c s]; simpl; try reflexivity.
  destruct (ascii_dec c c) as [_|N]; [apply IH | now elim N].
Qed.

(** X6: only the first seven characters of the version reach the
    configuration.  What the plugins are given is always a prefix of
    [VERSION]; and text that follows a version of seven characters or
    more, such as the newline [git] ends its output with, changes neither
    the base configuration nor either merged configuration. *)
Theorem version_tail_irrelevant (host : Host) (s t : string) :
  String.prefix (substring s 0 7) s = true /\
  (7 <= String.length s ->
     substring (s +:+ t) 0 7 = substring s 0 7 /\
     String.length (substring (s +:+ t) 0 7) = 7 /\
     common host (s +:+ t) = common host s /\
     merge (common host (s +:+ t)) (dev_overlay host)
       = merge (common host s) (dev_overlay host) /\
     merge (common host (s +:+ t)) (build_overlay host)
       = merge (common host s) (build_overlay host)).
Proof.
  split.
  - rewrite substring_from_0. apply prefix_substring_0.
  - intros Hlen.
    assert (Hsub : substring (s +:+ t) 0 7 = substring s 0 7).
    { rewrite !substring_from_0, length_append.
      replace (Nat.min 7 (String.length s + String.length t)) with 7 by lia.
      replace (Nat.min 7 (String.length s)) with 7 by lia.
      now apply substring_0_app. }
    assert (Hcommon : common host (s +:+ t) = common host s).
    { unfold common, html_plugin, offline_plugin. now rewrite Hsub. }
    split; [exact Hsub|]. split.
    { rewrite Hsub, length_substring_prefix. lia. }
    split; [exact Hcommon|]. now rewrite Hcommon.
Qed.

Lemma version_tail_irrelevant_witness :
  let lf := String "010"%char EmptyString in
  common host_git ("abcdef1234567890" +:+ lf) = common host_git "abcdef1234567890".
Proof.
  intros lf.
  apply (proj2 (version_tail_irrelevant host_git "abcdef1234567890" lf)).
  simpl. lia.
Defined.

(** ** The directory a production build removes *)

Lemma append_inj_l (d x y : string) : d +:+ x = d +:+ y -> x = y.
Proof.
  induction d as [|c d IH]; simpl; [auto|].
  intros [= H]. now apply IH.
Qed.

Lemma prefix_append_l (d x y : string) :
  String.prefix (d +:+ x) (d +:+ y) = String.prefix x y.
Proof.
  induction d as [|c d IH]; simpl; [reflexivity|].
  destruct (ascii_dec c c) as [_|N]; [exact IH | now elim N].
Qed.

Lemma append_assoc_l (a b c : string) : (a +:+ b) +:+ c = a +:+ (b +:+ c).
Proof.
  induction a as [|x a IH]; [reflexivity|].
  change (String x ((a +:+ b) +:+ c) = String x (a +:+ (b +:+ c))).
  now f_equal.
Qed.

(** X7: the one directory [CleanPlugin] is given is [PATHS.build], the
    very directory both the base and the production overlay name as
    [output.path].  For every [__dirname] it differs from the application
    directory [PATHS.app], and neither of the two lies inside the other;
    the base configuration and the development overlay hold no
    [CleanPlugin] at all. *)
Theorem clean_target_is_output_dir (host : Host) (version : string) :
  clean_targets (build_overlay host) = [VStr (PATHS_build host)] /\
  get2 "output" "path" (build_overlay host) = Some (VStr (PATHS_build host)) /\
  get2 "output" "path" (common host version) = Some (VStr (PATHS_build host)) /\
  clean_targets (common host version) = [] /\
  clean_targets (dev_overlay host) = [] /\
  PATHS_build host <> PATHS_app host /\
  String.prefix (PATHS_build host +:+ "/") (PATHS_app host) = false /\
  String.prefix (PATHS_app host +:+ "/") (PATHS_build host) = false.
Proof.
  split; [reflexivity|]. split; [reflexivity|]. split; [reflexivity|].
  split; [reflexivity|]. split; [reflexivity|].
  unfold PATHS_build, PATHS_app, path_join.
  split; [|split].
  - intros H. apply append_inj_l in H. discriminate.
  - rewrite append_assoc_l, prefix_append_l. reflexivity.
  - rewrite append_assoc_l, prefix_append_l. reflexivity.
Qed.

(** X8: with [merge] concatenating plugin lists, the exported
    configuration removes a directory only for target ['build'], and then
    exactly [PATHS.build]; for every other target, recognized or not,
    nothing is removed. *)
Theorem clean_only_when_building (host : Host) (e : gmap string string) :
  clean_targets (exported host e) =
    if build_guard (e !! "npm_lifecycle_event")
    then [VStr (PATHS_build host)]
    else [].
Proof.
  destruct (exported_cases host e) as (v & _ & HE). rewrite HE.
  destruct (build_guard (e !! "npm_lifecycle_event")); [reflexivity|].
  destruct (dev_guard (e !! "npm_lifecycle_event")); reflexivity.
Qed.

(** ** Babel's environment and the overlay *)

(** X9: the variable written for Babel agrees with the overlay for
    production and only partly for development.  After evaluation
    [BABEL_ENV] is ['build'] exactly when the production guard holds, and
    ['dev'] exactly when the target is ['dev']; with the target unset or
    empty the development guard holds all the same, while [BABEL_ENV] is
    ["undefined"] or empty and not ['dev']. *)
Theorem BABEL_ENV_and_guards (host : Host) (w : World) :
  let t := env w !! "npm_lifecycle_event" in
  let babel := env (snd (module_body host w)) !! "BABEL_ENV" in
  (babel = Some "build" <-> build_guard t = true) /\
  (babel = Some "dev" <-> t = Some "dev") /\
  (babel = Some "dev" -> dev_guard t = true) /\
  (t = None -> dev_guard t = true /\ babel = Some "undefined") /\
  (t = Some "" -> dev_guard t = true /\ babel = Some "").
Proof.
  intros t babel.
  destruct (module_body_run host w) as (v & w1 & _ & HM). fold t in HM.
  assert (Hb : babel = Some (to_String t)).
  { subst babel. rewrite HM. cbn [snd env]. apply lookup_insert_eq. }
  rewrite Hb. clear HM Hb babel.
  split; [|split; [|split; [|split]]].
  - rewrite build_guard_true.
    destruct t as [s|]; simpl; split; intros [= H]; try discriminate;
      now rewrite ?H.
  - destruct t as [s|]; simpl; split; intros [= H]; try discriminate;
      now rewrite ?H.
  - intros H. apply dev_guard_true.
    destruct t as [s|]; simpl in H; [left; congruence | discriminate].
  - intros ->. split; reflexivity.
  - intros ->. split; reflexivity.
Qed.

Lemma BABEL_ENV_and_guards_witness :
  env (snd (module_body host_git (start ∅))) !! "BABEL_ENV" = Some "undefined" /\
  build_guard (Some "build") = true.
Proof.
  destruct (BABEL_ENV_and_guards host_git (start ∅)) as (_ & _ & _ & H & _).
  destruct (BABEL_ENV_and_guards host_git
              (start (env_of [("npm_lifecycle_event", "build")]))) as (H' & _).
  split.
  - apply H. reflexivity.
  - apply H'. reflexivity.
Defined.
